(** * EpicServer: a shallow embedding of [server.py]

    The Flask handlers of [server.py] are modelled as functions from a
    server [state] to a response and the state the handler leaves behind.
    The module-level dictionaries [users] and [files] and the
    [uploads] folder are the three components of the state. *)

From Stdlib Require Import String Ascii.
From stdpp Require Import base gmap list strings.

Open Scope string_scope.

(* ------------------------------------------------------------------ *)
(** ** Data model *)

(** [bcrypt.hashpw(password.encode('utf-8'), salt)] with bcrypt 5: a
    password of more than 72 bytes raises [ValueError] ([None]); otherwise
    the digest is kept as the pair it is computed from, so that [checkpw]
    accepts exactly the password that was hashed (the ideal behaviour of a
    salted one-way hash).  A string stands for the UTF-8 bytes of the
    password. *)
Inductive digest := Hashed (salt password : string).

Definition bcrypt_max : nat := 72.

Definition hashpw (password salt : string) : option digest :=
  if Nat.ltb bcrypt_max (String.length password) then None
  else Some (Hashed salt password).

(** [bcrypt.checkpw] re-hashes the candidate with the stored salt, so it
    raises on the same over-long passwords. *)
Definition checkpw (password : string) (h : digest) : option bool :=
  if Nat.ltb bcrypt_max (String.length password) then None
  else match h with Hashed _ pw => Some (String.eqb password pw) end.

(** [users[username] = {'password': ..., 'files': []}] *)
Record user := mk_user { password : digest; user_files : list string }.

(** [files[filename] = {'owner': username, 'shared_with': [usernames]}] *)
Record file_rec := mk_file { owner : string; shared_with : list string }.

Record state := mk_state {
  users : gmap string user;
  files : gmap string file_rec;
  (** content of the [uploads] folder, keyed by file name *)
  uploads : gmap string string
}.

(** Error kinds of the responses; [InternalFailure] is an exception raised
    inside a handler (Flask answers 500). *)
Inductive error :=
  | InvalidInput | DuplicateUser | AuthenticationFailed
  | NotFound | AccessDenied | InternalFailure.

Definition status_code (e : error) : Z :=
  match e with
  | InvalidInput => 400 | DuplicateUser => 400 | AuthenticationFailed => 401
  | NotFound => 404 | AccessDenied => 403 | InternalFailure => 500
  end.

Inductive reply :=
  | RMessage (msg : string)
  | RToken (identity : string)
  | RFiles (owned_files shared_files : list string)
  | RContent (filename content : string).

Inductive response := Ok (r : reply) | Err (e : error).

Definition is_error (r : response) : bool :=
  match r with Err _ => true | Ok _ => false end.

(* ------------------------------------------------------------------ *)
(** ** Python helpers *)

(** Truthiness of a request field: a missing field ([None]) and the empty
    string are both falsy; a missing field is passed as [""]. *)
Definition falsy (s : string) : bool := String.eqb s "".

(** [x in l] on a Python list of strings. *)
Definition py_in (x : string) (l : list string) : bool :=
  existsb (String.eqb x) l.

(** [l.append(x)] *)
Definition py_append (l : list string) (x : string) : list string := l ++ [x].

(** [l.remove(x)]: removes the first occurrence (the caller checks
    membership first, so the [ValueError] branch is never taken). *)
Fixpoint py_remove (x : string) (l : list string) : list string :=
  match l with
  | [] => []
  | y :: l' => if String.eqb x y then l' else y :: py_remove x l'
  end.

(* ------------------------------------------------------------------ *)
(** ** [werkzeug.utils.secure_filename] on a POSIX host

    [unicodedata.normalize("NFKD", ...)] followed by
    [.encode("ascii", "ignore")] keeps the ASCII characters; characters of
    code 128 and above are dropped (their NFKD decomposition is not
    modelled).  [os.sep] is ["/"] and [os.path.altsep] is [None];
    [os.name] is not ["nt"], so the device-name branch is not taken. *)

Definition is_ascii7 (c : ascii) : bool := Nat.ltb (nat_of_ascii c) 128.

(** [str.isspace()] on an ASCII character. *)
Definition py_isspace (c : ascii) : bool :=
  let n := nat_of_ascii c in
  ((Nat.leb 9 n) && (Nat.leb n 13)) || ((Nat.leb 28 n) && (Nat.leb n 32)).

(** Characters kept by [re.sub(r"[^A-Za-z0-9_.-]", "", ...)]. *)
Definition safe_char (c : ascii) : bool :=
  let n := nat_of_ascii c in
  ((Nat.leb 65 n) && (Nat.leb n 90)) || ((Nat.leb 97 n) && (Nat.leb n 122))
  || ((Nat.leb 48 n) && (Nat.leb n 57))
  || (Nat.eqb n 95) || (Nat.eqb n 46) || (Nat.eqb n 45).

Definition ascii_ignore (l : list ascii) : list ascii := filter is_ascii7 l.

(** [filename.replace("/", " ")] *)
Definition replace_sep (l : list ascii) : list ascii :=
  map (fun c => if Ascii.eqb c "/"%char then " "%char else c) l.

(** [str.split()]: maximal runs of non-space characters; [cur] is the word
    being read, in reverse. *)
Fixpoint split_ws_aux (cur : list ascii) (l : list ascii) : list (list ascii) :=
  match l with
  | [] => match cur with [] => [] | _ => [rev cur] end
  | c :: l' =>
      if py_isspace c then
        match cur with
        | [] => split_ws_aux [] l'
        | _ => rev cur :: split_ws_aux [] l'
        end
      else split_ws_aux (c :: cur) l'
  end.

Definition py_split (l : list ascii) : list (list ascii) := split_ws_aux [] l.

(** ["_".join(words)] *)
Fixpoint join_underscore (ws : list (list ascii)) : list ascii :=
  match ws with
  | [] => []
  | [w] => w
  | w :: ws' => w ++ "_"%char :: join_underscore ws'
  end.

Definition strip_char (c : ascii) : bool :=
  Ascii.eqb c "."%char || Ascii.eqb c "_"%char.

Fixpoint lstrip (l : list ascii) : list ascii :=
  match l with
  | c :: l' => if strip_char c then lstrip l' else l
  | [] => []
  end.

(** [s.strip("._")] *)
Definition py_strip (l : list ascii) : list ascii := rev (lstrip (rev (lstrip l))).

Definition secure_filename (filename : string) : string :=
  let l := ascii_ignore (list_ascii_of_string filename) in
  let l := replace_sep l in
  let l := filter safe_char (join_underscore (py_split l)) in
  string_of_list_ascii (py_strip l).

Example secure_filename_ex1 : secure_filename "../../etc/passwd" = "etc_passwd".
Proof. reflexivity. Qed.
Example secure_filename_ex2 : secure_filename "My cool movie.mov" = "My_cool_movie.mov".
Proof. reflexivity. Qed.
Example secure_filename_ex3 : secure_filename ".." = "".
Proof. reflexivity. Qed.

(* ------------------------------------------------------------------ *)
(** ** Handlers *)

(** The session presented to a [@jwt_required()] endpoint: a valid access
    token carrying [get_jwt_identity()] (any string: the token is only
    checked for its signature and expiry), or a missing / invalid / expired
    one, which [flask_jwt_extended] rejects with 401 before the handler
    body runs. *)
Inductive session := Token (identity : string) | NoToken.

Definition set_users (s : state) (u : gmap string user) : state :=
  mk_state u (files s) (uploads s).
Definition set_files (s : state) (f : gmap string file_rec) : state :=
  mk_state (users s) f (uploads s).
Definition set_uploads (s : state) (up : gmap string string) : state :=
  mk_state (users s) (files s) up.

Definition msg (m : string) : response := Ok (RMessage m).

(** [register()] *)
Definition register (s : state) (username pw salt : string) : response * state :=
  if falsy username || falsy pw then (Err InvalidInput, s)
  else if decide (is_Some (users s !! username)) then (Err DuplicateUser, s)
  else match hashpw pw salt with
  | None => (Err InternalFailure, s)
  | Some h =>
      let s' := set_users s (<[username := mk_user h []]> (users s)) in
      (* save_users() writes the same dictionary to users.json *)
      (msg "User registered successfully", s')
  end.

(** [login()] *)
Definition login (s : state) (username pw : string) : response * state :=
  if falsy username || falsy pw then (Err InvalidInput, s)
  else match users s !! username with
       | None => (Err AuthenticationFailed, s)
       | Some u =>
           match checkpw pw (password u) with
           | None => (Err InternalFailure, s)
           | Some true => (Ok (RToken username), s)
           | Some false => (Err AuthenticationFailed, s)
           end
       end.

(** [get_files()]; Python iterates [files.items()] in insertion order, the
    model in the key order of the map. *)
Definition get_files (s : state) (username : string) : response * state :=
  let items := map_to_list (files s) in
  let owned := map fst (filter (fun kv => owner kv.2 = username) items) in
  let shared := map fst (filter (fun kv => py_in username (shared_with kv.2) = true) items) in
  (Ok (RFiles owned shared), s).

(** [file.save(os.path.join('uploads', filename))]: with an empty
    [filename] the path is ['uploads/'], the folder itself, and [open(...,
    'wb')] raises [IsADirectoryError]; a name longer than the file system's
    255-byte limit raises [OSError] (ENAMETOOLONG); otherwise the content
    replaces the stored one.  A sanitized name is ASCII, so its length is
    its length in bytes. *)
Definition name_max : nat := 255.

Definition file_save (up : gmap string string) (filename content : string)
  : option (gmap string string) :=
  if falsy filename then None
  else if Nat.ltb name_max (String.length filename) then None
  else Some (<[filename := content]> up).

(** [upload_file()]; [file] is [request.files.get('file')] as the pair
    (client file name, content). *)
Definition upload_file (s : state) (username : string) (file : option (string * string))
  : response * state :=
  match file with
  | None => (Err InvalidInput, s)
  | Some (raw, content) =>
      if falsy raw then (Err InvalidInput, s)
      else
        let filename := secure_filename raw in
        match file_save (uploads s) filename content with
        | None => (Err InternalFailure, s)
        | Some up =>
            let s1 := set_uploads s up in
            let s2 := set_files s1 (<[filename := mk_file username []]> (files s1)) in
            (msg "File uploaded successfully", s2)
        end
  end.

(** [download_file(filename)]; [send_file] raises when the stored content
    is missing. *)
Definition download_file (s : state) (username filename : string) : response * state :=
  match files s !! filename with
  | None => (Err NotFound, s)
  | Some fd =>
      if negb (String.eqb (owner fd) username) && negb (py_in username (shared_with fd))
      then (Err AccessDenied, s)
      else match uploads s !! filename with
           | Some c => (Ok (RContent filename c), s)
           | None => (Err InternalFailure, s)
           end
  end.

(** [share_file()] *)
Definition share_file (s : state) (username filename target_user : string)
  : response * state :=
  if falsy filename || falsy target_user then (Err InvalidInput, s)
  else match files s !! filename with
  | None => (Err NotFound, s)
  | Some fd =>
      if negb (String.eqb (owner fd) username) then (Err AccessDenied, s)
      else if negb (bool_decide (is_Some (users s !! target_user))) then (Err NotFound, s)
      else
        let s' :=
          if negb (py_in target_user (shared_with fd))
          then set_files s (<[filename := mk_file (owner fd)
                                 (py_append (shared_with fd) target_user)]> (files s))
          else s in
        (msg "File shared successfully", s')
  end.

(** [revoke_access()] *)
Definition revoke_access (s : state) (username filename target_user : string)
  : response * state :=
  if falsy filename || falsy target_user then (Err InvalidInput, s)
  else match files s !! filename with
  | None => (Err NotFound, s)
  | Some fd =>
      if negb (String.eqb (owner fd) username) then (Err AccessDenied, s)
      else
        let s' :=
          if py_in target_user (shared_with fd)
          then set_files s (<[filename := mk_file (owner fd)
                                 (py_remove target_user (shared_with fd))]> (files s))
          else s in
        (msg "Access revoked successfully", s')
  end.

(** [delete_file(filename)]: [os.remove] only when the content exists,
    then [del files[filename]]. *)
Definition delete_file (s : state) (username filename : string) : response * state :=
  match files s !! filename with
  | None => (Err NotFound, s)
  | Some fd =>
      if negb (String.eqb (owner fd) username) then (Err AccessDenied, s)
      else
        let s1 := set_uploads s (delete filename (uploads s)) in
        let s2 := set_files s1 (delete filename (files s1)) in
        (msg "File deleted successfully", s2)
  end.

(** [@jwt_required()] *)
Definition jwt_required (s : state) (sess : session)
  (k : string -> response * state) : response * state :=
  match sess with
  | NoToken => (Err AuthenticationFailed, s)
  | Token u => k u
  end.

(* ------------------------------------------------------------------ *)
(** ** Requests and reachable states *)

Inductive request :=
  | Register (username pw salt : string)
  | Login (username pw : string)
  | List (sess : session)
  | Upload (sess : session) (file : option (string * string))
  | Download (sess : session) (filename : string)
  | Share (sess : session) (filename target_user : string)
  | Revoke (sess : session) (filename target_user : string)
  | Delete (sess : session) (filename : string).

Definition exec (s : state) (r : request) : response * state :=
  match r with
  | Register u p salt => register s u p salt
  | Login u p => login s u p
  | List sess => jwt_required s sess (get_files s)
  | Upload sess f => jwt_required s sess (fun u => upload_file s u f)
  | Download sess n => jwt_required s sess (fun u => download_file s u n)
  | Share sess n t => jwt_required s sess (fun u => share_file s u n t)
  | Revoke sess n t => jwt_required s sess (fun u => revoke_access s u n t)
  | Delete sess n => jwt_required s sess (fun u => delete_file s u n)
  end.

(** Any request may arrive: a token signed with the hard-coded
    [JWT_SECRET_KEY] can carry any identity, registered or not. *)
Inductive step : state -> state -> Prop :=
  | step_exec s r : step s (exec s r).2.

(** At start-up [users] is loaded from [users.json], [files] is empty and
    the [uploads] folder holds whatever it held. *)
Definition initial (u : gmap string user) (up : gmap string string) : state :=
  mk_state u ∅ up.

Inductive reachable : state -> Prop :=
  | reach_init u up : reachable (initial u up)
  | reach_step s s' : reachable s -> step s s' -> reachable s'.

Definition run (s : state) (rs : list request) : state :=
  foldl (fun st r => (exec st r).2) s rs.

(** The file name a request acts on: the sanitized name of an upload, the
    name argument of Share, Revoke and Delete. *)
Definition request_target (r : request) : option string :=
  match r with
  | Upload _ (Some (raw, _)) => Some (secure_filename raw)
  | Share _ n _ | Revoke _ n _ | Delete _ n => Some n
  | _ => None
  end.

(* ------------------------------------------------------------------ *)
(** ** A session: alice registers, uploads ["a.txt"], shares it with
    alice; bob
    owns ["a.txt"] shared with carol *)

Definition s_alice_reg : state :=
  (exec (initial ∅ ∅) (Register "alice" "correct" "salt")).2.
Definition s_alice_up : state :=
  (exec s_alice_reg (Upload (Token "alice") (Some ("a.txt", "data")))).2.
Definition s_alice_self : state :=
  (exec s_alice_up (Share (Token "alice") "a.txt" "alice")).2.

Definition s_bob_owns : state :=
  run (initial ∅ ∅)
    [Register "alice" "pa" "s1"; Register "bob" "pb" "s2"; Register "carol" "pc" "s3";
     Upload (Token "bob") (Some ("a.txt", "bob data"));
     Share (Token "bob") "a.txt" "carol"].

(* ------------------------------------------------------------------ *)
(** ** Lemmas on the Python list helpers *)

Lemma py_in_In (x : string) (l : list string) : py_in x l = true <-> In x l.
Proof.
  unfold py_in. rewrite existsb_exists. split.
  - intros (y & Hy & Heq). apply String.eqb_eq in Heq. by subst.
  - intros H. exists x. split; [done | apply String.eqb_refl].
Qed.

Lemma py_in_false (x : string) (l : list string) : py_in x l = false <-> ~ In x l.
Proof.
  rewrite <- py_in_In. destruct (py_in x l); split; congruence || done.
Qed.

Lemma py_remove_incl (x y : string) (l : list string) :
  In y (py_remove x l) -> In y l.
Proof.
  induction l as [|z l IH]; simpl; [done|].
  destruct (String.eqb x z); simpl; [auto|]. intros [->|H]; auto.
Qed.

Lemma py_remove_NoDup (x : string) (l : list string) :
  NoDup l -> NoDup (py_remove x l).
Proof.
  induction l as [|z l IH]; simpl; [done|]. intros Hnd.
  apply NoDup_cons in Hnd as [Hz Hl].
  destruct (String.eqb x z); [done|]. constructor; [|auto].
  intros Hin. apply Hz. apply list_elem_of_In.
  apply list_elem_of_In in Hin. by apply py_remove_incl in Hin.
Qed.

Lemma py_remove_not_In (x : string) (l : list string) :
  NoDup l -> ~ In x (py_remove x l).
Proof.
  induction l as [|z l IH]; simpl; [tauto|]. intros Hnd.
  apply NoDup_cons in Hnd as [Hz Hl].
  destruct (String.eqb x z) eqn:E.
  - apply String.eqb_eq in E. subst. intros Hin. apply Hz. by apply list_elem_of_In.
  - apply String.eqb_neq in E. simpl. intros [H|H]; [congruence|]. by apply IH.
Qed.

Lemma py_append_NoDup (x : string) (l : list string) :
  NoDup l -> ~ In x l -> NoDup (py_append l x).
Proof.
  intros Hnd Hx. unfold py_append. apply NoDup_app. split; [done|]. split.
  - intros y Hy Hy'. apply list_elem_of_singleton in Hy'. subst.
    apply Hx. by apply list_elem_of_In.
  - apply NoDup_singleton.
Qed.

(* ------------------------------------------------------------------ *)
(** ** The share-list invariant *)

(** Every share list is duplicate-free and names registered users. *)
Definition shares_ok (s : state) : Prop :=
  forall (n : string) (fd : file_rec), files s !! n = Some fd ->
    NoDup (shared_with fd) /\
    forall u, In u (shared_with fd) -> is_Some (users s !! u).

Lemma exec_users_mono (s : state) (r : request) (u : string) :
  is_Some (users s !! u) -> is_Some (users (exec s r).2 !! u).
Proof.
  intros Hu. destruct r as [un p salt|un p|[i|]|[i|] f|[i|] n|[i|] n t|[i|] n t|[i|] n];
    simpl; try done.
  - unfold register. destruct (falsy un || falsy p); [done|].
    destruct (decide _); [done|]. destruct (hashpw p salt); [|done]. simpl.
    destruct (decide (un = u)) as [->|Hne].
    + by rewrite lookup_insert_eq.
    + by rewrite lookup_insert_ne.
  - unfold login. destruct (falsy un || falsy p); [done|].
    destruct (users s !! un); [destruct checkpw as [[]|]|]; done.
  - unfold upload_file. destruct f as [[raw c]|]; [|done].
    destruct (falsy raw); [done|]. destruct file_save; done.
  - unfold download_file. destruct (files s !! n); [|done].
    destruct (_ && _); [done|]. by destruct (uploads s !! n).
  - unfold share_file. destruct (falsy n || falsy t); [done|].
    destruct (files s !! n); [|done]. destruct (negb _); [done|].
    destruct (negb (bool_decide _)); [done|]. simpl.
    by destruct (negb (py_in _ _)).
  - unfold revoke_access. destruct (falsy n || falsy t); [done|].
    destruct (files s !! n); [|done]. destruct (negb _); [done|]. simpl.
    by destruct (py_in _ _).
  - unfold delete_file. destruct (files s !! n); [|done].
    by destruct (negb _).
Qed.

Lemma shares_ok_users (s : state) (u' : gmap string user) :
  shares_ok s ->
  (forall u, is_Some (users s !! u) -> is_Some (u' !! u)) ->
  shares_ok (set_users s u').
Proof.
  intros Hs Hmono n fd Hfd. destruct (Hs n fd Hfd) as [Hnd Hreg].
  split; [done|]. intros u Hu. apply Hmono. by apply Hreg.
Qed.

Lemma shares_ok_insert (s : state) (n : string) (fd : file_rec) :
  shares_ok s -> NoDup (shared_with fd) ->
  (forall u, In u (shared_with fd) -> is_Some (users s !! u)) ->
  shares_ok (set_files s (<[n := fd]> (files s))).
Proof.
  intros Hs Hnd Hreg m fd' Hm. simpl in Hm.
  destruct (decide (n = m)) as [->|Hne].
  - rewrite lookup_insert_eq in Hm. injection Hm as <-. done.
  - rewrite lookup_insert_ne in Hm by done. by apply (Hs m).
Qed.

Lemma exec_shares_ok (s : state) (r : request) :
  shares_ok s -> shares_ok (exec s r).2.
Proof.
  intros Hs.
  destruct r as [un p salt|un p|[i|]|[i|] f|[i|] n|[i|] n t|[i|] n t|[i|] n];
    simpl; try done.
  - unfold register. destruct (falsy un || falsy p); [done|].
    destruct (decide _); [done|]. destruct (hashpw p salt); [|done]. simpl. apply shares_ok_users; [done|].
    intros u Hu. destruct (decide (un = u)) as [->|Hne].
    + by rewrite lookup_insert_eq.
    + by rewrite lookup_insert_ne.
  - unfold login. destruct (falsy un || falsy p); [done|].
    destruct (users s !! un); [destruct checkpw as [[]|]|]; done.
  - unfold upload_file. destruct f as [[raw c]|]; [|done].
    destruct (falsy raw); [done|]. unfold file_save.
    destruct (falsy (secure_filename raw)); [done|].
    destruct (Nat.ltb name_max (String.length (secure_filename raw))); [done|]. simpl.
    apply (shares_ok_insert (set_uploads s _)); simpl.
    + intros m fd Hm. apply (Hs m fd Hm).
    + constructor.
    + done.
  - unfold download_file. destruct (files s !! n); [|done].
    destruct (_ && _); [done|]. by destruct (uploads s !! n).
  - unfold share_file. destruct (falsy n || falsy t); [done|].
    destruct (files s !! n) as [fd|] eqn:Hfd; [|done]. destruct (negb _); [done|].
    destruct (negb (bool_decide _)) eqn:Ht; [done|]. simpl.
    destruct (py_in t (shared_with fd)) eqn:Hin; simpl; [done|].
    destruct (Hs n fd Hfd) as [Hnd Hreg].
    apply shares_ok_insert; simpl; [done| |].
    + apply py_append_NoDup; [done|]. by apply py_in_false.
    + intros u Hu. unfold py_append in Hu. apply in_app_or in Hu as [Hu|[<-|[]]].
      * by apply Hreg.
      * apply negb_false_iff in Ht. by apply bool_decide_eq_true in Ht.
  - unfold revoke_access. destruct (falsy n || falsy t); [done|].
    destruct (files s !! n) as [fd|] eqn:Hfd; [|done]. destruct (negb _); [done|]. simpl.
    destruct (py_in t (shared_with fd)); simpl; [|done].
    destruct (Hs n fd Hfd) as [Hnd Hreg].
    apply shares_ok_insert; simpl; [done| |].
    + by apply py_remove_NoDup.
    + intros u Hu. apply Hreg. by apply py_remove_incl in Hu.
  - unfold delete_file. destruct (files s !! n); [|done].
    destruct (negb _); [done|]. simpl.
    intros m fd Hm. simpl in Hm. destruct (decide (n = m)) as [->|Hne].
    + by rewrite lookup_delete_eq in Hm.
    + rewrite lookup_delete_ne in Hm by done. apply (Hs m fd Hm).
Qed.

Lemma reachable_shares_ok (s : state) : reachable s -> shares_ok s.
Proof.
  induction 1 as [u up|s s' Hr IH Hstep].
  - intros n fd Hn. simpl in Hn. by rewrite lookup_empty in Hn.
  - inversion Hstep; subst. by apply exec_shares_ok.
Qed.

Lemma reachable_exec (s : state) (r : request) :
  reachable s -> reachable (exec s r).2.
Proof. intros Hr. eapply reach_step; [exact Hr|]. constructor. Qed.

Lemma falsy_false (x : string) : x <> "" -> falsy x = false.
Proof. intros H. unfold falsy. by apply String.eqb_neq. Qed.

Lemma secure_filename_empty : secure_filename "" = "".
Proof. reflexivity. Qed.

(** Lookups in the name lists built by [get_files]. *)
Lemma In_keys_filter (P : string * file_rec -> Prop) `{!forall kv, Decision (P kv)}
    (m : gmap string file_rec) (n : string) :
  In n (map fst (filter P (map_to_list m))) <->
  exists fd, m !! n = Some fd /\ P (n, fd).
Proof.
  rewrite in_map_iff. split.
  - intros ([k fd] & <- & Hin). apply list_elem_of_In in Hin.
    apply list_elem_of_filter in Hin as [HP Hin].
    apply elem_of_map_to_list in Hin. by exists fd.
  - intros (fd & Hfd & HP). exists (n, fd). split; [done|].
    apply list_elem_of_In, list_elem_of_filter. split; [done|].
    by apply elem_of_map_to_list.
Qed.

Lemma s_alice_self_reachable : reachable s_alice_self.
Proof.
  unfold s_alice_self, s_alice_up, s_alice_reg.
  repeat apply reachable_exec; try constructor; vm_compute; eauto.
Qed.

Lemma s_alice_up_reachable : reachable s_alice_up.
Proof.
  unfold s_alice_up, s_alice_reg.
  repeat apply reachable_exec; try constructor; vm_compute; eauto.
Qed.

Example s_alice_self_files :
  files s_alice_self !! "a.txt" = Some (mk_file "alice" ["alice"]).
Proof. vm_compute. reflexivity. Qed.

(* ------------------------------------------------------------------ *)
(** ** C1: the owner and the share list *)

(** C1 (counterexample): in a reachable state a record's [shared_with]
    can contain its owner: after alice uploads ["a.txt"] and shares it with
    alice, the record is [{owner: alice, shared_with: [alice]}]. *)
Lemma C1_owner_in_shared_reachable :
  ~ (forall s, reachable s -> forall (n : string) (fd : file_rec),
       files s !! n = Some fd -> ~ In (owner fd) (shared_with fd)).
Proof.
  intros H. apply (H s_alice_self s_alice_self_reachable "a.txt" (mk_file "alice" ["alice"])).
  - apply s_alice_self_files.
  - simpl. by left.
Qed.

(** C1 (amended): after a request, a record whose owner is in its share
    list either comes from a record of the same name and owner that already
    had the owner in its share list, or the request was the owner's
    [Share(owner, name, owner)]. *)
Theorem C1_owner_shared_only_by_self_share (s : state) (r : request)
    (n : string) (fd' : file_rec) :
  files (exec s r).2 !! n = Some fd' -> In (owner fd') (shared_with fd') ->
  (exists fd, files s !! n = Some fd /\ owner fd = owner fd' /\
              In (owner fd) (shared_with fd)) \/
  r = Share (Token (owner fd')) n (owner fd').
Proof.
  intros Hfd' Hin.
  destruct r as [un p salt|un p|[i|]|[i|] f|[i|] n0|[i|] n0 t|[i|] n0 t|[i|] n0];
    simpl in Hfd'; try (left; exists fd'; by subst).
  - unfold register in Hfd'. destruct (falsy un || falsy p); [left; by exists fd'|].
    destruct (decide _); [left; by exists fd'|].
    destruct (hashpw p salt); left; by exists fd'.
  - unfold login in Hfd'. left. exists fd'.
    destruct (falsy un || falsy p); [done|].
    destruct (users s !! un); [destruct checkpw as [[]|]|]; done.
  - unfold upload_file in Hfd'. destruct f as [[raw c]|]; [|left; by exists fd'].
    destruct (falsy raw); [left; by exists fd'|].
    destruct file_save; [|left; by exists fd']. simpl in Hfd'.
    destruct (decide (secure_filename raw = n)) as [<-|Hne].
    + rewrite lookup_insert_eq in Hfd'. injection Hfd' as <-. destruct Hin.
    + rewrite lookup_insert_ne in Hfd' by done. left. by exists fd'.
  - unfold download_file in Hfd'. left. exists fd'.
    destruct (files s !! n0); [|done]. destruct (_ && _); [done|].
    by destruct (uploads s !! n0).
  - unfold share_file in Hfd'. destruct (falsy n0 || falsy t) eqn:Ha; [left; by exists fd'|].
    destruct (files s !! n0) as [fd|] eqn:Hfd; [|left; by exists fd'].
    destruct (negb (String.eqb (owner fd) i)) eqn:Ho; [left; by exists fd'|].
    destruct (negb (bool_decide _)); [left; by exists fd'|].
    destruct (negb (py_in t (shared_with fd))); simpl in Hfd'; [|left; by exists fd'].
    destruct (decide (n0 = n)) as [<-|Hne].
    + rewrite lookup_insert_eq in Hfd'. injection Hfd' as <-. simpl in *.
      apply negb_false_iff, String.eqb_eq in Ho. subst i.
      unfold py_append in Hin. apply in_app_or in Hin as [Hin|[<-|[]]].
      * left. by exists fd.
      * by right.
    + rewrite lookup_insert_ne in Hfd' by done. left. by exists fd'.
  - unfold revoke_access in Hfd'. destruct (falsy n0 || falsy t); [left; by exists fd'|].
    destruct (files s !! n0) as [fd|] eqn:Hfd; [|left; by exists fd'].
    destruct (negb _); [left; by exists fd'|].
    destruct (py_in t (shared_with fd)); simpl in Hfd'; [|left; by exists fd'].
    destruct (decide (n0 = n)) as [<-|Hne].
    + rewrite lookup_insert_eq in Hfd'. injection Hfd' as <-. simpl in *.
      left. exists fd. split; [done|]. split; [done|]. by apply py_remove_incl in Hin.
    + rewrite lookup_insert_ne in Hfd' by done. left. by exists fd'.
  - unfold delete_file in Hfd'. destruct (files s !! n0) as [fd|] eqn:Hfd; [|left; by exists fd'].
    destruct (negb _); [left; by exists fd'|]. simpl in Hfd'.
    destruct (decide (n0 = n)) as [<-|Hne].
    + by rewrite lookup_delete_eq in Hfd'.
    + rewrite lookup_delete_ne in Hfd' by done. left. by exists fd'.
Qed.

Lemma C1_owner_shared_only_by_self_share_witness :
  files (exec s_alice_up (Share (Token "alice") "a.txt" "alice")).2 !! "a.txt"
    = Some (mk_file "alice" ["alice"]) /\
  ((exists fd, files s_alice_up !! "a.txt" = Some fd /\ owner fd = "alice" /\
               In (owner fd) (shared_with fd)) \/
   Share (Token "alice") "a.txt" "alice" = Share (Token "alice") "a.txt" "alice").
Proof.
  split; [vm_compute; reflexivity|].
  apply (C1_owner_shared_only_by_self_share s_alice_up
           (Share (Token "alice") "a.txt" "alice") "a.txt" (mk_file "alice" ["alice"])).
  - vm_compute. reflexivity.
  - simpl. by left.
Defined.

(* ------------------------------------------------------------------ *)
(** ** C2: Share and Revoke by a non-owner *)

(** C2 (counterexample): with no record for ["a.txt"], carol is not its
    owner, yet [Share(carol, "a.txt", bob)] fails with [NotFound], not
    [AccessDenied]. *)
Lemma C2_nonowner_missing_file_not_found :
  ~ (forall (s : state) (caller target : string),
       (forall fd, files s !! "a.txt" = Some fd -> owner fd <> caller) ->
       (exec s (Share (Token caller) "a.txt" target)).1 = Err AccessDenied /\
       (exec s (Revoke (Token caller) "a.txt" target)).1 = Err AccessDenied).
Proof.
  intros H. destruct (H (initial ∅ ∅) "carol" "bob") as [Hs _].
  - intros fd Hfd. vm_compute in Hfd. discriminate.
  - vm_compute in Hs. discriminate.
Qed.

(** C2 (amended): for a non-empty target, Share and Revoke of ["a.txt"]
    by a caller who is not the owner of its existing record fail with
    [AccessDenied]; when no record exists they fail with [NotFound]. *)
Theorem C2_nonowner_share_revoke (s : state) (caller target : string) :
  target <> "" ->
  (forall fd, files s !! "a.txt" = Some fd -> owner fd <> caller ->
     (exec s (Share (Token caller) "a.txt" target)).1 = Err AccessDenied /\
     (exec s (Revoke (Token caller) "a.txt" target)).1 = Err AccessDenied) /\
  (files s !! "a.txt" = None ->
     (exec s (Share (Token caller) "a.txt" target)).1 = Err NotFound /\
     (exec s (Revoke (Token caller) "a.txt" target)).1 = Err NotFound).
Proof.
  intros Ht. simpl. unfold share_file, revoke_access.
  rewrite (falsy_false target Ht). simpl. split.
  - intros fd Hfd Ho. rewrite Hfd.
    apply String.eqb_neq in Ho. rewrite Ho. done.
  - intros Hn. by rewrite Hn.
Qed.

Example s_bob_owns_files :
  files s_bob_owns !! "a.txt" = Some (mk_file "bob" ["carol"]).
Proof. vm_compute. reflexivity. Qed.

Lemma C2_nonowner_share_revoke_witness :
  "bob" <> "" /\ files s_bob_owns !! "a.txt" = Some (mk_file "bob" ["carol"]) /\
  (exec s_bob_owns (Share (Token "carol") "a.txt" "bob")).1 = Err AccessDenied /\
  (exec s_bob_owns (Revoke (Token "carol") "a.txt" "bob")).1 = Err AccessDenied.
Proof.
  split; [discriminate|]. split; [vm_compute; reflexivity|].
  apply (proj1 (C2_nonowner_share_revoke s_bob_owns "carol" "bob" ltac:(discriminate))
           (mk_file "bob" ["carol"])).
  - vm_compute. reflexivity.
  - discriminate.
Defined.

(* ------------------------------------------------------------------ *)
(** ** C3: existence is checked before ownership *)

(** C3 (counterexample): with no record for ["x"], [Share(c, "x", "")]
    fails with [InvalidInput], the argument check coming first. *)
Lemma C3_share_empty_target_invalid :
  ~ (forall (s : state) (caller n t : string), files s !! n = None ->
       (exec s (Share (Token caller) n t)).1 = Err NotFound).
Proof.
  intros H. specialize (H (initial ∅ ∅) "carol" "x" "" (lookup_empty _)).
  vm_compute in H. discriminate.
Qed.

(** C3 (amended): for a name with no record, Download and Delete fail
    with [NotFound]; Share and Revoke fail with [NotFound] when the name and
    the target are non-empty (and with [InvalidInput] otherwise); none of
    the four answers [AccessDenied]. *)
Theorem C3_missing_file_not_found (s : state) (caller n : string) :
  files s !! n = None ->
  (exec s (Download (Token caller) n)).1 = Err NotFound /\
  (exec s (Delete (Token caller) n)).1 = Err NotFound /\
  (forall t, n <> "" -> t <> "" ->
     (exec s (Share (Token caller) n t)).1 = Err NotFound /\
     (exec s (Revoke (Token caller) n t)).1 = Err NotFound) /\
  (forall t,
     (exec s (Share (Token caller) n t)).1 <> Err AccessDenied /\
     (exec s (Revoke (Token caller) n t)).1 <> Err AccessDenied).
Proof.
  intros Hn. simpl. unfold download_file, delete_file, share_file, revoke_access.
  rewrite Hn. split; [done|]. split; [done|]. split.
  - intros t Hn' Ht. by rewrite (falsy_false n Hn'), (falsy_false t Ht).
  - intros t. by destruct (falsy n || falsy t).
Qed.

Lemma C3_missing_file_not_found_witness :
  files s_bob_owns !! "b.txt" = None /\
  (exec s_bob_owns (Download (Token "carol") "b.txt")).1 = Err NotFound.
Proof.
  split; [vm_compute; reflexivity|].
  apply (C3_missing_file_not_found s_bob_owns "carol" "b.txt").
  vm_compute. reflexivity.
Defined.

(* ------------------------------------------------------------------ *)
(** ** C4: the two lists of [get_files] *)

(** C4 (counterexample): after alice shares ["a.txt"] with alice,
    [List(alice)] returns ["a.txt"] both as owned and as shared. *)
Lemma C4_list_not_disjoint :
  ~ (forall (s : state) (caller n : string),
       match (exec s (List (Token caller))).1 with
       | Ok (RFiles owned shared) => In n owned -> ~ In n shared
       | _ => True
       end).
Proof.
  intros H. specialize (H s_alice_self "alice" "a.txt").
  vm_compute in H. apply H; by left.
Qed.

Example s_alice_self_list :
  reachable s_alice_self /\
  (exec s_alice_self (List (Token "alice"))).1 = Ok (RFiles ["a.txt"] ["a.txt"]).
Proof. split; [apply s_alice_self_reachable | vm_compute; reflexivity]. Qed.

(** C4 (amended): a name is in both lists of [List(caller)] exactly when
    its record is owned by the caller and has the caller in its share list;
    the lists are disjoint exactly when no file of the caller is shared with
    the caller. *)
Theorem C4_list_overlap (s : state) (caller n : string) :
  match (exec s (List (Token caller))).1 with
  | Ok (RFiles owned shared) =>
      (In n owned /\ In n shared <->
       exists fd, files s !! n = Some fd /\ owner fd = caller /\
                  In caller (shared_with fd))
  | _ => False
  end.
Proof.
  simpl. rewrite !In_keys_filter. split.
  - intros [(fd & Hfd & Ho) (fd' & Hfd' & Hsh)].
    rewrite Hfd in Hfd'. injection Hfd' as <-. simpl in *.
    exists fd. split; [done|]. split; [done|]. by apply py_in_In.
  - intros (fd & Hfd & Ho & Hsh). split; exists fd; split; try done.
    simpl. by apply py_in_In.
Qed.

(* ------------------------------------------------------------------ *)
(** ** C5: upload replaces the record *)

(** C5: a successful upload whose sanitized name is non-empty leaves a
    record for that name owned by the uploader with an empty share list,
    and the uploaded content stored under it, whatever record the name had
    before. *)
Theorem C5_upload_owner_reset (s : state) (caller raw content : string) :
  secure_filename raw <> "" ->
  is_error (exec s (Upload (Token caller) (Some (raw, content)))).1 = false ->
  files (exec s (Upload (Token caller) (Some (raw, content)))).2 !! secure_filename raw
    = Some (mk_file caller []) /\
  uploads (exec s (Upload (Token caller) (Some (raw, content)))).2 !! secure_filename raw
    = Some content.
Proof.
  intros Hn. simpl. unfold upload_file.
  assert (Hraw : raw <> "") by (intros ->; by rewrite secure_filename_empty in Hn).
  rewrite (falsy_false raw Hraw). unfold file_save. rewrite (falsy_false _ Hn).
  destruct (Nat.ltb name_max (String.length (secure_filename raw))); [done|].
  intros _. simpl. by rewrite !lookup_insert_eq.
Qed.

Lemma C5_upload_owner_reset_witness :
  files s_bob_owns !! "a.txt" = Some (mk_file "bob" ["carol"]) /\
  is_error (exec s_bob_owns (Upload (Token "alice") (Some ("a.txt", "new")))).1 = false /\
  files (exec s_bob_owns (Upload (Token "alice") (Some ("a.txt", "new")))).2 !! "a.txt"
    = Some (mk_file "alice" []).
Proof.
  split; [vm_compute; reflexivity|]. split; [vm_compute; reflexivity|].
  apply (C5_upload_owner_reset s_bob_owns "alice" "a.txt" "new").
  - vm_compute. discriminate.
  - vm_compute. reflexivity.
Defined.

(* ------------------------------------------------------------------ *)
(** ** C6: Share needs a registered target, Revoke does not *)

(** C6: for the owner, a non-empty name with a record and a non-empty
    target that is not a user, Share fails with [NotFound] leaving the state
    as it was, while Revoke succeeds. *)
Theorem C6_share_unknown_target (s : state) (caller n t : string) (fd : file_rec) :
  n <> "" -> t <> "" -> files s !! n = Some fd -> owner fd = caller ->
  users s !! t = None ->
  exec s (Share (Token caller) n t) = (Err NotFound, s) /\
  (exec s (Revoke (Token caller) n t)).1 = msg "Access revoked successfully".
Proof.
  intros Hn Ht Hfd Ho Hu. simpl. unfold share_file, revoke_access.
  rewrite (falsy_false n Hn), (falsy_false t Ht). simpl.
  rewrite Hfd, Ho, String.eqb_refl. simpl. rewrite Hu.
  rewrite bool_decide_eq_false_2 by (intros [? ?]; discriminate).
  split; [done|]. by destruct (py_in t (shared_with fd)).
Qed.

Lemma C6_share_unknown_target_witness :
  exec s_bob_owns (Share (Token "bob") "a.txt" "dave") = (Err NotFound, s_bob_owns) /\
  (exec s_bob_owns (Revoke (Token "bob") "a.txt" "dave")).1
    = msg "Access revoked successfully".
Proof.
  apply (C6_share_unknown_target s_bob_owns "bob" "a.txt" "dave" (mk_file "bob" ["carol"])).
  - discriminate.
  - discriminate.
  - vm_compute. reflexivity.
  - reflexivity.
  - vm_compute. reflexivity.
Defined.

(* ------------------------------------------------------------------ *)
(** ** C7: Share and Revoke are idempotent *)

Lemma share_file_idem (s : state) (u n t : string) :
  share_file (share_file s u n t).2 u n t = share_file s u n t.
Proof.
  unfold share_file.
  destruct (falsy n || falsy t); [done|].
  destruct (files s !! n) as [fd|] eqn:Hfd; simpl; [|by rewrite Hfd].
  destruct (negb (String.eqb (owner fd) u)) eqn:Ho; simpl; [by rewrite Hfd, Ho|].
  destruct (negb (bool_decide (is_Some (users s !! t)))) eqn:Ht; simpl;
    [by rewrite Hfd, Ho, Ht|].
  destruct (py_in t (shared_with fd)) eqn:Hin; simpl.
  - by rewrite Hfd, Ho, Ht, Hin.
  - rewrite lookup_insert_eq. simpl. rewrite Ho, Ht. simpl.
    assert (Hin' : py_in t (py_append (shared_with fd) t) = true).
    { apply py_in_In. unfold py_append. apply in_or_app. right. by left. }
    by rewrite Hin'.
Qed.

Lemma revoke_access_idem (s : state) (u n t : string) :
  shares_ok s ->
  revoke_access (revoke_access s u n t).2 u n t = revoke_access s u n t.
Proof.
  intros Hs. unfold revoke_access.
  destruct (falsy n || falsy t); [done|].
  destruct (files s !! n) as [fd|] eqn:Hfd; simpl; [|by rewrite Hfd].
  destruct (negb (String.eqb (owner fd) u)) eqn:Ho; simpl; [by rewrite Hfd, Ho|].
  destruct (py_in t (shared_with fd)) eqn:Hin; simpl.
  - rewrite lookup_insert_eq. simpl. rewrite Ho.
    destruct (Hs n fd Hfd) as [Hnd _].
    assert (Hin' : py_in t (py_remove t (shared_with fd)) = false).
    { apply py_in_false. by apply py_remove_not_In. }
    by rewrite Hin'.
  - by rewrite Hfd, Ho, Hin.
Qed.

(** C7: in every reachable state, a Share repeated with the same
    arguments answers as the first one did and leaves the state the first
    one left, and so does a repeated Revoke; the owner's Share of a user
    already in the share list, and the owner's Revoke of a user not in it,
    answer success and change nothing. *)
Theorem C7_share_revoke_idempotent (s : state) (sess : session) (n t : string) :
  reachable s ->
  exec (exec s (Share sess n t)).2 (Share sess n t) = exec s (Share sess n t) /\
  exec (exec s (Revoke sess n t)).2 (Revoke sess n t) = exec s (Revoke sess n t) /\
  (forall fd, files s !! n = Some fd -> sess = Token (owner fd) ->
     n <> "" -> t <> "" -> In t (shared_with fd) ->
     exec s (Share sess n t) = (msg "File shared successfully", s)) /\
  (forall fd, files s !! n = Some fd -> sess = Token (owner fd) ->
     n <> "" -> t <> "" -> ~ In t (shared_with fd) ->
     exec s (Revoke sess n t) = (msg "Access revoked successfully", s)).
Proof.
  intros Hr. pose proof (reachable_shares_ok s Hr) as Hs. split; [|split; [|split]].
  - destruct sess as [u|]; simpl; [apply share_file_idem|done].
  - destruct sess as [u|]; simpl; [by apply revoke_access_idem|done].
  - intros fd Hfd -> Hn Ht Hin. destruct (Hs n fd Hfd) as [_ Hreg].
    simpl. unfold share_file.
    rewrite (falsy_false n Hn), (falsy_false t Ht). simpl.
    rewrite Hfd, String.eqb_refl. simpl.
    rewrite bool_decide_eq_true_2 by (by apply Hreg). simpl.
    by rewrite (proj2 (py_in_In t _) Hin).
  - intros fd Hfd -> Hn Ht Hin.
    simpl. unfold revoke_access.
    rewrite (falsy_false n Hn), (falsy_false t Ht). simpl.
    rewrite Hfd, String.eqb_refl. simpl.
    by rewrite (proj2 (py_in_false t _) Hin).
Qed.

Lemma s_bob_owns_reachable : reachable s_bob_owns.
Proof.
  unfold s_bob_owns, run. cbn [foldl].
  repeat apply reachable_exec. constructor.
Qed.

Lemma C7_share_revoke_idempotent_witness :
  exec (exec s_bob_owns (Share (Token "bob") "a.txt" "alice")).2
       (Share (Token "bob") "a.txt" "alice")
    = exec s_bob_owns (Share (Token "bob") "a.txt" "alice") /\
  exec s_bob_owns (Share (Token "bob") "a.txt" "carol")
    = (msg "File shared successfully", s_bob_owns) /\
  exec s_bob_owns (Revoke (Token "bob") "a.txt" "alice")
    = (msg "Access revoked successfully", s_bob_owns).
Proof.
  destruct (C7_share_revoke_idempotent s_bob_owns (Token "bob") "a.txt" "alice"
              s_bob_owns_reachable) as (Hsh & _ & _ & Hrv).
  destruct (C7_share_revoke_idempotent s_bob_owns (Token "bob") "a.txt" "carol"
              s_bob_owns_reachable) as (_ & _ & Hsh' & _).
  split; [exact Hsh|]. split.
  - apply (Hsh' (mk_file "bob" ["carol"])); try discriminate.
    + vm_compute. reflexivity.
    + reflexivity.
    + simpl. by left.
  - apply (Hrv (mk_file "bob" ["carol"])); try discriminate.
    + vm_compute. reflexivity.
    + reflexivity.
    + simpl. intros [H|[]]. discriminate.
Defined.

(* ------------------------------------------------------------------ *)
(** ** C8: a failed request changes nothing *)

(** C8: every request that answers with an error, of any kind, leaves
    the user store, the file records and the uploads folder as they were. *)
Theorem C8_error_leaves_state (s : state) (r : request) :
  is_error (exec s r).1 = true -> (exec s r).2 = s.
Proof.
  destruct r as [un p salt|un p|[i|]|[i|] f|[i|] n|[i|] n t|[i|] n t|[i|] n];
    simpl; try done.
  - unfold register. destruct (falsy un || falsy p); [done|].
    destruct (decide _); [done|]. by destruct (hashpw p salt).
  - unfold login. destruct (falsy un || falsy p); [done|].
    destruct (users s !! un); [destruct checkpw as [[]|]|]; done.
  - unfold upload_file. destruct f as [[raw c]|]; [|done].
    destruct (falsy raw); [done|]. by destruct file_save.
  - unfold download_file. destruct (files s !! n); [|done].
    destruct (_ && _); [done|]. by destruct (uploads s !! n).
  - unfold share_file. destruct (falsy n || falsy t); [done|].
    destruct (files s !! n); [|done]. destruct (negb _); [done|].
    by destruct (negb (bool_decide _)).
  - unfold revoke_access. destruct (falsy n || falsy t); [done|].
    destruct (files s !! n); [|done]. by destruct (negb _).
  - unfold delete_file. destruct (files s !! n); [|done].
    by destruct (negb _).
Qed.

Lemma C8_error_leaves_state_witness :
  is_error (exec s_bob_owns (Register "bob" "other" "s9")).1 = true /\
  (exec s_bob_owns (Register "bob" "other" "s9")).2 = s_bob_owns.
Proof.
  split; [vm_compute; reflexivity|].
  apply (C8_error_leaves_state s_bob_owns (Register "bob" "other" "s9")).
  vm_compute. reflexivity.
Defined.

(* ------------------------------------------------------------------ *)
(** ** C9: names that sanitize to the empty string *)

(** C9 (counterexample): no upload of a non-empty name that sanitizes to
    the empty string succeeds and creates a record keyed by [""]. *)
Lemma C9_no_record_for_empty_name :
  ~ (exists (raw : string) (s : state) (caller content : string),
       raw <> "" /\ secure_filename raw = "" /\
       is_error (exec s (Upload (Token caller) (Some (raw, content)))).1 = false /\
       is_Some (files (exec s (Upload (Token caller) (Some (raw, content)))).2 !! "")).
Proof.
  intros (raw & s & caller & content & Hraw & Hsec & Hok & _).
  simpl in Hok. unfold upload_file in Hok.
  rewrite (falsy_false raw Hraw), Hsec in Hok. discriminate.
Qed.

(** C9 (amended): the emptiness check is made on the raw name only; an
    upload of a non-empty raw name whose sanitization is empty (such as
    [".."]) passes it, then fails when the content is saved to the upload
    folder path itself, with an internal failure and the state unchanged. *)
Theorem C9_empty_sanitized_upload_fails (s : state) (caller raw content : string) :
  raw <> "" -> secure_filename raw = "" ->
  exec s (Upload (Token caller) (Some (raw, content))) = (Err InternalFailure, s).
Proof.
  intros Hraw Hsec. simpl. unfold upload_file.
  by rewrite (falsy_false raw Hraw), Hsec.
Qed.

Lemma C9_empty_sanitized_upload_fails_witness :
  ".." <> "" /\ secure_filename ".." = "" /\
  exec s_alice_up (Upload (Token "alice") (Some ("..", "data")))
    = (Err InternalFailure, s_alice_up).
Proof.
  split; [discriminate|]. split; [reflexivity|].
  apply C9_empty_sanitized_upload_fails; [discriminate | reflexivity].
Defined.

(* ------------------------------------------------------------------ *)
(** ** C10: shared users are registered *)

(** C10: in every reachable state, every user in a record's share list is
    a key of the user store. *)
Theorem C10_shared_registered (s : state) (n u : string) (fd : file_rec) :
  reachable s -> files s !! n = Some fd -> In u (shared_with fd) ->
  is_Some (users s !! u).
Proof.
  intros Hr Hfd Hu. by apply (proj2 (reachable_shares_ok s Hr n fd Hfd)).
Qed.

Lemma C10_shared_registered_witness : is_Some (users s_bob_owns !! "carol").
Proof.
  apply (C10_shared_registered s_bob_owns "a.txt" "carol" (mk_file "bob" ["carol"])).
  - apply s_bob_owns_reachable.
  - vm_compute. reflexivity.
  - simpl. by left.
Defined.

(* ------------------------------------------------------------------ *)
(** ** [secure_filename]: the shape of its output *)

Local Open Scope list_scope.

Lemma lstrip_incl (c : ascii) (l : list ascii) : In c (lstrip l) -> In c l.
Proof.
  induction l as [|d l IH]; simpl; [done|].
  destruct (strip_char d); [auto|done].
Qed.

Lemma lstrip_head (l : list ascii) (c : ascii) (rest : list ascii) :
  lstrip l = c :: rest -> strip_char c = false.
Proof.
  induction l as [|d l IH]; simpl; [done|].
  destruct (strip_char d) eqn:E; [auto|]. by intros [= <- _].
Qed.

Lemma lstrip_id (l : list ascii) :
  match l with c :: _ => strip_char c = false | [] => True end -> lstrip l = l.
Proof. destruct l as [|c l]; simpl; [done|]. by intros ->. Qed.

Lemma lstrip_app_keep (l : list ascii) (c : ascii) :
  strip_char c = false -> exists l', lstrip (l ++ [c]) = l' ++ [c].
Proof.
  intros Hc. induction l as [|d l IH]; simpl.
  - rewrite Hc. by exists [].
  - destruct (strip_char d); [done|]. by exists (d :: l).
Qed.

Lemma py_strip_incl (c : ascii) (l : list ascii) : In c (py_strip l) -> In c l.
Proof.
  unfold py_strip. intros H. apply in_rev in H.
  apply lstrip_incl in H. apply in_rev in H. by apply lstrip_incl in H.
Qed.

Lemma py_strip_ends (l : list ascii) :
  (forall c rest, py_strip l = c :: rest -> strip_char c = false) /\
  (forall c rest, py_strip l = rest ++ [c] -> strip_char c = false).
Proof.
  unfold py_strip. split.
  - intros c rest H. destruct (lstrip l) as [|d m] eqn:Hl; [done|].
    pose proof (lstrip_head l d m Hl) as Hd. simpl in H.
    destruct (lstrip_app_keep (rev m) d Hd) as [l' Hl'].
    rewrite Hl', rev_app_distr in H. simpl in H. by injection H as <- _.
  - intros c rest H. destruct (lstrip (rev (lstrip l))) as [|d m] eqn:Hl.
    + simpl in H. by destruct rest.
    + simpl in H. apply app_inj_tail in H as [_ <-]. exact (lstrip_head _ _ _ Hl).
Qed.

Lemma secure_filename_chars (raw : string) :
  Forall (fun c => safe_char c = true) (list_ascii_of_string (secure_filename raw)).
Proof.
  unfold secure_filename. rewrite list_ascii_of_string_of_list_ascii.
  apply Forall_forall. intros c Hc. apply list_elem_of_In, py_strip_incl in Hc.
  apply list_elem_of_In, list_elem_of_filter in Hc as [Hs _].
  by destruct (safe_char c).
Qed.

Lemma secure_filename_ends (raw : string) :
  (forall c rest, list_ascii_of_string (secure_filename raw) = c :: rest ->
                  strip_char c = false) /\
  (forall c rest, list_ascii_of_string (secure_filename raw) = rest ++ [c] ->
                  strip_char c = false).
Proof.
  unfold secure_filename. rewrite list_ascii_of_string_of_list_ascii.
  apply py_strip_ends.
Qed.

(** Every character of a sanitized name is one of [A-Za-z0-9_.-]: in
    particular no ["/"] and no blank. *)
Theorem X_secure_filename_charset (raw : string) (c : ascii) :
  In c (list_ascii_of_string (secure_filename raw)) ->
  safe_char c = true /\ c <> "/"%char /\ py_isspace c = false.
Proof.
  intros Hin. pose proof (secure_filename_chars raw) as H.
  rewrite Forall_forall in H. specialize (H c (proj2 (list_elem_of_In _ _) Hin)).
  split; [done|]. split.
  - intros ->. discriminate.
  - revert H. destruct c as [[] [] [] [] [] [] [] []]; vm_compute; congruence.
Qed.

Lemma X_secure_filename_charset_witness :
  In "a"%char (list_ascii_of_string (secure_filename "x/../a b")) /\
  (safe_char "a"%char = true /\ "a"%char <> "/"%char /\ py_isspace "a"%char = false).
Proof.
  split; [vm_compute; tauto|].
  apply (X_secure_filename_charset "x/../a b" "a"%char). vm_compute. tauto.
Defined.

(** A sanitized name neither starts nor ends with ["."] or ["_"]; so it is
    never ["."] nor [".."]. *)
Theorem X_secure_filename_no_dot_ends (raw : string) :
  secure_filename raw <> "." /\ secure_filename raw <> ".." /\
  (forall c rest, list_ascii_of_string (secure_filename raw) = c :: rest ->
                  c <> "."%char /\ c <> "_"%char) /\
  (forall c rest, list_ascii_of_string (secure_filename raw) = rest ++ [c] ->
                  c <> "."%char /\ c <> "_"%char).
Proof.
  destruct (secure_filename_ends raw) as [Hh Ht].
  split; [|split; [|split]].
  - intros E. specialize (Hh "."%char []). rewrite E in Hh. by specialize (Hh eq_refl).
  - intros E. specialize (Hh "."%char [ "."%char ]). rewrite E in Hh.
    by specialize (Hh eq_refl).
  - intros c rest H. specialize (Hh c rest H). split; intros ->; discriminate.
  - intros c rest H. specialize (Ht c rest H). split; intros ->; discriminate.
Qed.

Lemma safe_char_props (c : ascii) :
  safe_char c = true ->
  is_ascii7 c = true /\ py_isspace c = false /\ Ascii.eqb c "/"%char = false.
Proof. destruct c as [[] [] [] [] [] [] [] []]; vm_compute; intuition congruence. Qed.

Lemma filter_all_true (f : ascii -> bool) (l : list ascii) :
  Forall (fun c => f c = true) l -> filter f l = l.
Proof.
  induction 1 as [|c l Hc Hl IH]; [done|].
  rewrite filter_cons_True; [by rewrite IH | by rewrite Hc].
Qed.

Lemma split_ws_aux_nospace (cur l : list ascii) :
  Forall (fun c => py_isspace c = false) l ->
  split_ws_aux cur l = match rev cur ++ l with [] => [] | w => [w] end.
Proof.
  intros Hl. revert cur. induction Hl as [|c l Hc Hl IH]; intros cur; simpl.
  - rewrite app_nil_r. destruct cur as [|d cur]; [done|].
    simpl. by destruct (rev cur).
  - rewrite Hc, IH. simpl. rewrite <- app_assoc. simpl.
    destruct (rev cur); done.
Qed.

Lemma py_strip_id (l : list ascii) :
  (forall c rest, l = c :: rest -> strip_char c = false) ->
  (forall c rest, l = rest ++ [c] -> strip_char c = false) ->
  py_strip l = l.
Proof.
  intros Hh Ht. unfold py_strip. rewrite (lstrip_id l).
  2:{ destruct l as [|c l]; [done|]. by apply (Hh c l). }
  rewrite lstrip_id; [apply rev_involutive|].
  destruct (rev l) as [|c m] eqn:E; [done|].
  apply (Ht c (rev m)). rewrite <- (rev_involutive l), E. done.
Qed.

(** Sanitizing a sanitized name gives it back. *)
Theorem X_secure_filename_idempotent (raw : string) :
  secure_filename (secure_filename raw) = secure_filename raw.
Proof.
  pose proof (secure_filename_chars raw) as Hc.
  destruct (secure_filename_ends raw) as [Hh Ht].
  unfold secure_filename at 1.
  set (L := list_ascii_of_string (secure_filename raw)) in *.
  assert (Hp : Forall (fun c => is_ascii7 c = true /\ py_isspace c = false /\
                                 Ascii.eqb c "/"%char = false) L).
  { eapply Forall_impl; [exact Hc|]. intros c. apply safe_char_props. }
  unfold ascii_ignore. rewrite (filter_all_true is_ascii7 L).
  2:{ eapply Forall_impl; [exact Hp|]. by intros c [? _]. }
  unfold replace_sep. rewrite (map_ext_in _ id).
  2:{ intros c Hin. rewrite Forall_forall in Hp.
      destruct (Hp c (proj2 (list_elem_of_In _ _) Hin)) as (_ & _ & ->). done. }
  rewrite map_id. unfold py_split. rewrite split_ws_aux_nospace.
  2:{ eapply Forall_impl; [exact Hp|]. by intros c (_ & ? & _). }
  change (rev [] ++ L) with L. assert (HL : forall M : list ascii,
    join_underscore (match M with [] => [] | a :: l0 => [a :: l0] end) = M)
    by (by intros [|? ?]).
  rewrite HL, filter_all_true by exact Hc.
  rewrite py_strip_id by done.
  apply string_of_list_ascii_of_string.
Qed.

(* ------------------------------------------------------------------ *)
(** ** Records and stored content *)

(** Every record has its content in the [uploads] folder. *)
Definition content_ok (s : state) : Prop :=
  forall (n : string) (fd : file_rec), files s !! n = Some fd -> is_Some (uploads s !! n).

Lemma exec_content_ok (s : state) (r : request) :
  content_ok s -> content_ok (exec s r).2.
Proof.
  intros Hs.
  destruct r as [un p salt|un p|[i|]|[i|] f|[i|] n|[i|] n t|[i|] n t|[i|] n];
    simpl; try done.
  - unfold register. destruct (falsy un || falsy p); [done|].
    destruct (decide _); [done|]. by destruct (hashpw p salt).
  - unfold login. destruct (falsy un || falsy p); [done|].
    destruct (users s !! un); [destruct checkpw as [[]|]|]; done.
  - unfold upload_file. destruct f as [[raw c]|]; [|done].
    destruct (falsy raw); [done|]. unfold file_save.
    destruct (falsy (secure_filename raw)); [done|].
    destruct (Nat.ltb name_max (String.length (secure_filename raw))); [done|]. simpl.
    intros m fd Hm. simpl in Hm |- *.
    destruct (decide (secure_filename raw = m)) as [<-|Hne].
    + by rewrite lookup_insert_eq.
    + rewrite lookup_insert_ne in Hm by done. rewrite lookup_insert_ne by done.
      by apply (Hs m fd).
  - unfold download_file. destruct (files s !! n); [|done].
    destruct (_ && _); [done|]. by destruct (uploads s !! n).
  - unfold share_file. destruct (falsy n || falsy t); [done|].
    destruct (files s !! n) as [fd|] eqn:Hfd; [|done]. destruct (negb _); [done|].
    destruct (negb (bool_decide _)); [done|]. simpl.
    destruct (negb (py_in _ _)); simpl; [|done].
    intros m fd' Hm. simpl in Hm. simpl. destruct (decide (n = m)) as [<-|Hne].
    + by apply (Hs n fd).
    + rewrite lookup_insert_ne in Hm by done. by apply (Hs m fd').
  - unfold revoke_access. destruct (falsy n || falsy t); [done|].
    destruct (files s !! n) as [fd|] eqn:Hfd; [|done]. destruct (negb _); [done|]. simpl.
    destruct (py_in _ _); simpl; [|done].
    intros m fd' Hm. simpl in Hm. simpl. destruct (decide (n = m)) as [<-|Hne].
    + by apply (Hs n fd).
    + rewrite lookup_insert_ne in Hm by done. by apply (Hs m fd').
  - unfold delete_file. destruct (files s !! n); [|done].
    destruct (negb _); [done|]. simpl.
    intros m fd Hm. simpl in Hm |- *. destruct (decide (n = m)) as [->|Hne].
    + by rewrite lookup_delete_eq in Hm.
    + rewrite lookup_delete_ne in Hm by done. rewrite lookup_delete_ne by done.
      by apply (Hs m fd).
Qed.

Lemma reachable_content_ok (s : state) : reachable s -> content_ok s.
Proof.
  induction 1 as [u up|s s' Hr IH Hstep].
  - intros n fd Hn. simpl in Hn. by rewrite lookup_empty in Hn.
  - inversion Hstep; subst. by apply exec_content_ok.
Qed.

(** In every reachable state each file record has its content stored in
    the upload folder: metadata never points to missing content. *)
Theorem X_record_has_content (s : state) (n : string) (fd : file_rec) :
  reachable s -> files s !! n = Some fd -> is_Some (uploads s !! n).
Proof. intros Hr Hfd. by apply (reachable_content_ok s Hr n fd). Qed.

Lemma X_record_has_content_witness : is_Some (uploads s_bob_owns !! "a.txt").
Proof.
  apply (X_record_has_content s_bob_owns "a.txt" (mk_file "bob" ["carol"])).
  - apply s_bob_owns_reachable.
  - vm_compute. reflexivity.
Defined.

(** In every reachable state no share list holds a name twice. *)
Theorem X_shared_with_nodup (s : state) (n : string) (fd : file_rec) :
  reachable s -> files s !! n = Some fd -> NoDup (shared_with fd).
Proof. intros Hr Hfd. by apply (reachable_shares_ok s Hr n fd). Qed.

Lemma X_shared_with_nodup_witness : NoDup ["carol"].
Proof.
  apply (X_shared_with_nodup s_bob_owns "a.txt" (mk_file "bob" ["carol"])).
  - apply s_bob_owns_reachable.
  - vm_compute. reflexivity.
Defined.

(* ------------------------------------------------------------------ *)
(** ** Accounts *)



(** Registering a new name with a password of more than 72 bytes fails
    inside bcrypt with an internal failure and registers nothing. *)
Theorem X_register_long_password (s : state) (u p salt : string) :
  u <> "" -> users s !! u = None -> bcrypt_max < String.length p ->
  exec s (Register u p salt) = (Err InternalFailure, s).
Proof.
  intros Hu Hnone Hl. simpl. unfold register, hashpw.
  assert (Hp : p <> "") by (intros ->; simpl in Hl; unfold bcrypt_max in Hl; lia).
  rewrite (falsy_false u Hu), (falsy_false p Hp). simpl.
  rewrite decide_False by (rewrite Hnone; intros [? ?]; discriminate).
  by rewrite (proj2 (Nat.ltb_lt _ _) Hl).
Qed.

Definition long_password : string := "aaaaaaaaaaaaaaaaaaaaaaaaaaaaaaaaaaaaaaaaaaaaaaaaaaaaaaaaaaaaaaaaaaaaaaaaa".

Lemma X_register_long_password_witness :
  exec s_bob_owns (Register "dave" long_password "s5") = (Err InternalFailure, s_bob_owns).
Proof.
  apply X_register_long_password; [discriminate | vm_compute; reflexivity |].
  vm_compute. lia.
Defined.

(** Registering a taken name fails with [DuplicateUser] and changes
    nothing: the stored credential stays the first one. *)
Theorem X_register_duplicate (s : state) (u p salt : string) (rec : user) :
  u <> "" -> p <> "" -> users s !! u = Some rec ->
  exec s (Register u p salt) = (Err DuplicateUser, s).
Proof.
  intros Hu Hp Hrec. simpl. unfold register.
  rewrite (falsy_false u Hu), (falsy_false p Hp). simpl.
  rewrite decide_True; [done|]. by rewrite Hrec.
Qed.

Lemma X_register_duplicate_witness :
  exec s_bob_owns (Register "bob" "other" "s9") = (Err DuplicateUser, s_bob_owns).
Proof.
  apply (X_register_duplicate s_bob_owns "bob" "other" "s9" (mk_user (Hashed "s2" "pb") [])).
  - discriminate.
  - discriminate.
  - vm_compute. reflexivity.
Defined.

(** For a non-empty password of at most 72 bytes, Login answers an
    unknown name and a wrong password with the same [AuthenticationFailed];
    for a password of more than 72 bytes, bcrypt fails for a known name
    (internal failure) while an unknown name still gets
    [AuthenticationFailed]. The state is unchanged. *)
Theorem X_login_failures (s : state) (u p : string) :
  u <> "" -> p <> "" ->
  (String.length p <= bcrypt_max ->
   (forall rec, users s !! u = Some rec -> checkpw p (password rec) <> Some true) ->
   exec s (Login u p) = (Err AuthenticationFailed, s)) /\
  (bcrypt_max < String.length p ->
   exec s (Login u p) =
     (match users s !! u with
      | Some _ => Err InternalFailure
      | None => Err AuthenticationFailed
      end, s)).
Proof.
  intros Hu Hp. simpl. unfold login.
  rewrite (falsy_false u Hu), (falsy_false p Hp). simpl. split.
  - intros Hl Hbad. destruct (users s !! u) as [rec|] eqn:Hrec; [|done].
    specialize (Hbad rec eq_refl). revert Hbad. unfold checkpw.
    rewrite (proj2 (Nat.ltb_ge _ _) Hl).
    destruct (password rec) as [salt pw]. by destruct (String.eqb p pw).
  - intros Hl. destruct (users s !! u) as [rec|]; [|done].
    unfold checkpw. by rewrite (proj2 (Nat.ltb_lt _ _) Hl).
Qed.

Lemma X_login_failures_witness :
  exec s_bob_owns (Login "bob" long_password) = (Err InternalFailure, s_bob_owns) /\
  exec s_bob_owns (Login "dave" long_password) = (Err AuthenticationFailed, s_bob_owns) /\
  exec s_bob_owns (Login "bob" "pa") = (Err AuthenticationFailed, s_bob_owns).
Proof.
  split; [|split].
  - apply (X_login_failures s_bob_owns "bob" long_password);
      [discriminate | discriminate | vm_compute; lia].
  - apply (X_login_failures s_bob_owns "dave" long_password);
      [discriminate | discriminate | vm_compute; lia].
  - apply (X_login_failures s_bob_owns "bob" "pa"); [discriminate | discriminate | |].
    + vm_compute. lia.
    + intros rec Hrec. vm_compute in Hrec. injection Hrec as <-. vm_compute. discriminate.
Defined.

(** No request removes a user or changes a stored user record. *)
Theorem X_user_records_stable (s : state) (r : request) (u : string) (rec : user) :
  users s !! u = Some rec -> users (exec s r).2 !! u = Some rec.
Proof.
  intros Hu.
  destruct r as [un p salt|un p|[i|]|[i|] f|[i|] n|[i|] n t|[i|] n t|[i|] n];
    simpl; try done.
  - unfold register. destruct (falsy un || falsy p); [done|].
    destruct (decide _) as [|Hn]; [done|]. destruct (hashpw p salt); [|done]. simpl.
    destruct (decide (un = u)) as [->|Hne].
    + exfalso. apply Hn. by rewrite Hu.
    + by rewrite lookup_insert_ne.
  - unfold login. destruct (falsy un || falsy p); [done|].
    destruct (users s !! un); [destruct checkpw as [[]|]|]; done.
  - unfold upload_file. destruct f as [[raw c]|]; [|done].
    destruct (falsy raw); [done|]. destruct file_save; done.
  - unfold download_file. destruct (files s !! n); [|done].
    destruct (_ && _); [done|]. by destruct (uploads s !! n).
  - unfold share_file. destruct (falsy n || falsy t); [done|].
    destruct (files s !! n); [|done]. destruct (negb _); [done|].
    destruct (negb (bool_decide _)); [done|]. simpl.
    by destruct (negb (py_in _ _)).
  - unfold revoke_access. destruct (falsy n || falsy t); [done|].
    destruct (files s !! n); [|done]. destruct (negb _); [done|]. simpl.
    by destruct (py_in _ _).
  - unfold delete_file. destruct (files s !! n); [|done].
    by destruct (negb _).
Qed.

Lemma X_user_records_stable_witness :
  users (exec s_bob_owns (Register "bob" "other" "s9")).2 !! "bob"
    = Some (mk_user (Hashed "s2" "pb") []).
Proof.
  apply X_user_records_stable. vm_compute. reflexivity.
Defined.

(* ------------------------------------------------------------------ *)
(** ** File operations *)

Lemma py_remove_In_iff (t u : string) (l : list string) :
  NoDup l -> In u (py_remove t l) <-> In u l /\ u <> t.
Proof.
  intros Hnd. split.
  - intros Hin. split; [by apply py_remove_incl in Hin|].
    intros ->. by apply (py_remove_not_In t l).
  - intros [Hin Hne]. induction l as [|y l IH]; [done|].
    apply NoDup_cons in Hnd as [_ Hl]. simpl.
    destruct (String.eqb t y) eqn:E.
    + apply String.eqb_eq in E. subst y. destruct Hin as [->|Hin]; [done|done].
    + destruct Hin as [->|Hin]; [by left|]. right. by apply IH.
Qed.

(** In a reachable state, Download of an existing record answers the
    stored content to its owner and to the users it is shared with, and
    [AccessDenied] to everybody else; it never changes the state. *)
Theorem X_download_access (s : state) (caller n : string) (fd : file_rec) :
  reachable s -> files s !! n = Some fd ->
  exists c, uploads s !! n = Some c /\
    exec s (Download (Token caller) n) =
      ((if String.eqb (owner fd) caller || py_in caller (shared_with fd)
        then Ok (RContent n c) else Err AccessDenied), s).
Proof.
  intros Hr Hfd. destruct (reachable_content_ok s Hr n fd Hfd) as [c Hc].
  exists c. split; [done|]. simpl. unfold download_file. rewrite Hfd.
  destruct (String.eqb (owner fd) caller), (py_in caller (shared_with fd));
    simpl; by rewrite ?Hc.
Qed.

Lemma X_download_access_witness :
  exists c, uploads s_bob_owns !! "a.txt" = Some c /\
    exec s_bob_owns (Download (Token "carol") "a.txt") =
      ((if String.eqb "bob" "carol" || py_in "carol" ["carol"]
        then Ok (RContent "a.txt" c) else Err AccessDenied), s_bob_owns).
Proof.
  apply (X_download_access s_bob_owns "carol" "a.txt" (mk_file "bob" ["carol"])).
  - apply s_bob_owns_reachable.
  - vm_compute. reflexivity.
Defined.

(** After the owner shares a file with a registered user, that user
    downloads its content. *)
Theorem X_share_then_download (s : state) (n t c : string) (fd : file_rec) :
  n <> "" -> t <> "" -> files s !! n = Some fd -> uploads s !! n = Some c ->
  is_Some (users s !! t) ->
  (exec (exec s (Share (Token (owner fd)) n t)).2 (Download (Token t) n)).1
    = Ok (RContent n c).
Proof.
  intros Hn Ht Hfd Hc Hu. simpl. unfold share_file.
  rewrite (falsy_false n Hn), (falsy_false t Ht). simpl.
  rewrite Hfd, String.eqb_refl. simpl.
  rewrite bool_decide_eq_true_2 by done. simpl.
  unfold download_file.
  destruct (py_in t (shared_with fd)) eqn:Hin; simpl.
  - rewrite Hfd, Hin, Hc. by rewrite andb_false_r.
  - rewrite lookup_insert_eq. simpl.
    assert (Hin' : py_in t (py_append (shared_with fd) t) = true).
    { apply py_in_In. unfold py_append. apply in_or_app. right. by left. }
    rewrite Hin', Hc. by rewrite andb_false_r.
Qed.

Lemma X_share_then_download_witness :
  (exec (exec s_bob_owns (Share (Token "bob") "a.txt" "alice")).2
        (Download (Token "alice") "a.txt")).1 = Ok (RContent "a.txt" "bob data").
Proof.
  apply (X_share_then_download s_bob_owns "a.txt" "alice" "bob data" (mk_file "bob" ["carol"]));
    try discriminate; vm_compute; eauto.
Defined.

(** In a reachable state, after the owner revokes a user other than
    the owner, that user's Download fails with [AccessDenied]. *)
Theorem X_revoke_then_download (s : state) (n t : string) (fd : file_rec) :
  reachable s -> n <> "" -> t <> "" -> files s !! n = Some fd -> t <> owner fd ->
  (exec (exec s (Revoke (Token (owner fd)) n t)).2 (Download (Token t) n)).1
    = Err AccessDenied.
Proof.
  intros Hr Hn Ht Hfd Hto. destruct (reachable_shares_ok s Hr n fd Hfd) as [Hnd _].
  simpl. unfold revoke_access.
  rewrite (falsy_false n Hn), (falsy_false t Ht). simpl.
  rewrite Hfd, String.eqb_refl. simpl. unfold download_file.
  assert (Ho : String.eqb (owner fd) t = false) by (apply String.eqb_neq; congruence).
  destruct (py_in t (shared_with fd)) eqn:Hin; simpl.
  - rewrite lookup_insert_eq. simpl. rewrite Ho.
    assert (Hin' : py_in t (py_remove t (shared_with fd)) = false).
    { apply py_in_false. by apply py_remove_not_In. }
    by rewrite Hin'.
  - by rewrite Hfd, Ho, Hin.
Qed.

Lemma X_revoke_then_download_witness :
  (exec (exec s_bob_owns (Revoke (Token "bob") "a.txt" "carol")).2
        (Download (Token "carol") "a.txt")).1 = Err AccessDenied.
Proof.
  apply (X_revoke_then_download s_bob_owns "a.txt" "carol" (mk_file "bob" ["carol"])).
  - apply s_bob_owns_reachable.
  - discriminate.
  - discriminate.
  - vm_compute. reflexivity.
  - discriminate.
Defined.

(** After the owner deletes a file, its record and content are gone, and a
    Download or a second Delete by anybody fails with [NotFound]. *)
Theorem X_delete_then_not_found (s : state) (n caller : string) (fd : file_rec) :
  files s !! n = Some fd ->
  files (exec s (Delete (Token (owner fd)) n)).2 !! n = None /\
  uploads (exec s (Delete (Token (owner fd)) n)).2 !! n = None /\
  (exec (exec s (Delete (Token (owner fd)) n)).2 (Download (Token caller) n)).1
    = Err NotFound /\
  (exec (exec s (Delete (Token (owner fd)) n)).2 (Delete (Token caller) n)).1
    = Err NotFound.
Proof.
  intros Hfd. simpl. unfold delete_file, download_file.
  rewrite Hfd, String.eqb_refl. simpl. by rewrite !lookup_delete_eq.
Qed.

Lemma X_delete_then_not_found_witness :
  (exec (exec s_bob_owns (Delete (Token "bob") "a.txt")).2
        (Download (Token "bob") "a.txt")).1 = Err NotFound.
Proof.
  apply (X_delete_then_not_found s_bob_owns "a.txt" "bob" (mk_file "bob" ["carol"])).
  vm_compute. reflexivity.
Defined.

(** After an upload whose sanitized name is non-empty and within the
    255-byte name limit, List of the uploader shows the name as owned, and
    List of any other user shows it in neither list. *)
Theorem X_upload_then_list (s : state) (caller v raw content : string) :
  secure_filename raw <> "" -> String.length (secure_filename raw) <= name_max ->
  v <> caller ->
  match (exec (exec s (Upload (Token caller) (Some (raw, content)))).2
              (List (Token caller))).1 with
  | Ok (RFiles owned _) => In (secure_filename raw) owned
  | _ => False
  end /\
  match (exec (exec s (Upload (Token caller) (Some (raw, content)))).2
              (List (Token v))).1 with
  | Ok (RFiles owned shared) =>
      ~ In (secure_filename raw) owned /\ ~ In (secure_filename raw) shared
  | _ => False
  end.
Proof.
  intros Hn Hl Hv.
  assert (Hraw : raw <> "") by (intros ->; by rewrite secure_filename_empty in Hn).
  simpl. unfold upload_file, file_save.
  rewrite (falsy_false raw Hraw), (falsy_false _ Hn), (proj2 (Nat.ltb_ge _ _) Hl). simpl.
  rewrite !In_keys_filter. split; [|split].
  - exists (mk_file caller []). by rewrite lookup_insert_eq.
  - intros (fd & Hfd & Ho). rewrite lookup_insert_eq in Hfd.
    injection Hfd as <-. simpl in Ho. congruence.
  - intros (fd & Hfd & Hsh). rewrite lookup_insert_eq in Hfd.
    injection Hfd as <-. simpl in Hsh. discriminate.
Qed.

Lemma X_upload_then_list_witness :
  match (exec (exec s_bob_owns (Upload (Token "alice") (Some ("a.txt", "x")))).2
              (List (Token "alice"))).1 with
  | Ok (RFiles owned _) => In (secure_filename "a.txt") owned
  | _ => False
  end /\
  match (exec (exec s_bob_owns (Upload (Token "alice") (Some ("a.txt", "x")))).2
              (List (Token "carol"))).1 with
  | Ok (RFiles owned shared) =>
      ~ In (secure_filename "a.txt") owned /\ ~ In (secure_filename "a.txt") shared
  | _ => False
  end.
Proof.
  apply X_upload_then_list; vm_compute; [discriminate | lia | discriminate].
Defined.

(** On an existing record, the owner's Share of a registered user adds
    that user to the share list and nothing else; in a reachable state the
    owner's Revoke removes exactly that user. The owner stays the same. *)
Theorem X_share_revoke_effect (s : state) (n t : string) (fd : file_rec) :
  reachable s -> n <> "" -> t <> "" -> files s !! n = Some fd ->
  (is_Some (users s !! t) ->
   exists fd', files (exec s (Share (Token (owner fd)) n t)).2 !! n = Some fd' /\
     owner fd' = owner fd /\
     forall u, In u (shared_with fd') <-> In u (shared_with fd) \/ u = t) /\
  (exists fd', files (exec s (Revoke (Token (owner fd)) n t)).2 !! n = Some fd' /\
     owner fd' = owner fd /\
     forall u, In u (shared_with fd') <-> In u (shared_with fd) /\ u <> t).
Proof.
  intros Hr Hn Ht Hfd. destruct (reachable_shares_ok s Hr n fd Hfd) as [Hnd _].
  simpl. unfold share_file, revoke_access.
  rewrite (falsy_false n Hn), (falsy_false t Ht). simpl.
  rewrite Hfd, String.eqb_refl. simpl. split.
  - intros Hu. rewrite bool_decide_eq_true_2 by done. simpl.
    destruct (py_in t (shared_with fd)) eqn:Hin; simpl.
    + exists fd. split; [done|]. split; [done|]. intros u. split; [by left|].
      intros [H| ->]; [done|]. by apply py_in_In.
    + rewrite lookup_insert_eq. eexists. split; [reflexivity|]. split; [done|].
      intros u. simpl. unfold py_append. rewrite in_app_iff. simpl.
      split; intros [H|H].
      * by left.
      * right. destruct H as [H|[]]. congruence.
      * by left.
      * right. left. congruence.
  - destruct (py_in t (shared_with fd)) eqn:Hin; simpl.
    + rewrite lookup_insert_eq. eexists. split; [reflexivity|]. split; [done|].
      intros u. simpl. by apply py_remove_In_iff.
    + exists fd. split; [done|]. split; [done|]. intros u. split.
      * intros H. split; [done|]. intros ->. apply py_in_false in Hin. done.
      * by intros [H _].
Qed.

Lemma X_share_revoke_effect_witness :
  exists fd', files (exec s_bob_owns (Revoke (Token "bob") "a.txt" "carol")).2 !! "a.txt"
    = Some fd' /\ owner fd' = "bob" /\
    forall u, In u (shared_with fd') <-> In u ["carol"] /\ u <> "carol".
Proof.
  apply (proj2 (X_share_revoke_effect s_bob_owns "a.txt" "carol" (mk_file "bob" ["carol"])
                  s_bob_owns_reachable ltac:(discriminate) ltac:(discriminate)
                  ltac:(vm_compute; reflexivity))).
Defined.

(** A request leaves the record and the stored content of every name other
    than the one it targets as they were. *)
Theorem X_other_names_untouched (s : state) (r : request) (m : string) :
  request_target r <> Some m ->
  files (exec s r).2 !! m = files s !! m /\ uploads (exec s r).2 !! m = uploads s !! m.
Proof.
  intros Htg.
  destruct r as [un p salt|un p|[i|]|[i|] f|[i|] n|[i|] n t|[i|] n t|[i|] n];
    simpl in Htg |- *; try done.
  - unfold register. destruct (falsy un || falsy p); [done|].
    destruct (decide _); [done|]. by destruct (hashpw p salt).
  - unfold login. destruct (falsy un || falsy p); [done|].
    destruct (users s !! un); [destruct checkpw as [[]|]|]; done.
  - unfold upload_file. destruct f as [[raw c]|]; [|done].
    destruct (falsy raw); [done|]. unfold file_save.
    destruct (falsy (secure_filename raw)); [done|].
    destruct (Nat.ltb name_max (String.length (secure_filename raw))); [done|]. simpl.
    assert (Hne : secure_filename raw <> m) by congruence.
    by rewrite !lookup_insert_ne.
  - unfold download_file. destruct (files s !! n); [|done].
    destruct (_ && _); [done|]. by destruct (uploads s !! n).
  - unfold share_file. destruct (falsy n || falsy t); [done|].
    destruct (files s !! n); [|done]. destruct (negb _); [done|].
    destruct (negb (bool_decide _)); [done|]. simpl.
    destruct (negb (py_in _ _)); simpl; [|done].
    assert (Hne : n <> m) by congruence. by rewrite lookup_insert_ne.
  - unfold revoke_access. destruct (falsy n || falsy t); [done|].
    destruct (files s !! n); [|done]. destruct (negb _); [done|]. simpl.
    destruct (py_in _ _); simpl; [|done].
    assert (Hne : n <> m) by congruence. by rewrite lookup_insert_ne.
  - unfold delete_file. destruct (files s !! n); [|done].
    destruct (negb _); [done|]. simpl.
    assert (Hne : n <> m) by congruence. by rewrite !lookup_delete_ne.
Qed.

Lemma X_other_names_untouched_witness :
  files (exec s_bob_owns (Delete (Token "bob") "b.txt")).2 !! "a.txt"
    = files s_bob_owns !! "a.txt" /\
  uploads (exec s_bob_owns (Delete (Token "bob") "b.txt")).2 !! "a.txt"
    = uploads s_bob_owns !! "a.txt".
Proof. apply X_other_names_untouched. discriminate. Defined.
